(** * Max Storage Ultimate: the sensor platform

    A verification development for
    [custom_components/maxstorage_ultimate/sensor.py]: the table
    [SENSOR_TYPES] of sensor descriptions and the entity class
    [MaxStorageSensor], which projects the coordinator's latest snapshot
    through a description's [value_fn] and [attr_fn]. *)

From stdpp Require Import base option strings list gmap fin_maps.

Set Warnings "-register-all".

(** ** Python values *)

(** The coordinator's snapshot is the decoded JSON answer of the device:
    [None], booleans, integers, floats, strings, lists and dicts keyed by
    strings.  A float is carried as its binary64 bit pattern; no operation
    of this file looks inside one. *)
Inductive pyval : Type :=
  | PNone
  | PBool (b : bool)
  | PInt (n : Z)
  | PFloat (bits : Z)
  | PStr (s : string)
  | PList (l : list pyval)
  | PDict (d : gmap string pyval).

(** The exceptions a projection can raise.  Subscripting a dict with an
    absent key is a [KeyError] carrying that key (the missing-field error);
    subscripting a value that is no dict with a string is a [TypeError]. *)
Inductive exn : Type :=
  | KeyError (k : string)
  | TypeError.

Inductive result (A : Type) : Type :=
  | Ok (a : A)
  | Raise (e : exn).

Arguments Ok {A} a.
Arguments Raise {A} e.

(** ** The update coordinator *)

(** Modelled from the spec: the class [MaxStorageDataUpdateCoordinator] of
    [coordinator.py] and its [api] object are not part of the sources at
    hand.  The sensor platform reads three things of it: [data], the latest
    snapshot ([None] until a first update has completed);
    [api.device_info], of which ['Ident'] is the device's stable identity
    token, a string; and [device_info], the display metadata handed to
    every entity. *)
Record MaxStorageDataUpdateCoordinator : Type := {
  data : pyval;
  api_device_info : gmap string string;
  device_info : gmap string string
}.

(** ** Computations

    A method or a lambda of the module runs against the coordinator, the
    one object all sensors of a device share: it may read it, could write
    it, and either returns or raises. *)
Definition Py (A : Type) : Type :=
  MaxStorageDataUpdateCoordinator → result A * MaxStorageDataUpdateCoordinator.

Global Instance Py_ret : MRet Py := λ A (a : A) σ, (Ok a, σ).

Global Instance Py_bind : MBind Py := λ A B (f : A → Py B) (m : Py A) σ,
  match m σ with
  | (Ok a, σ') => f a σ'
  | (Raise e, σ') => (Raise e, σ')
  end.

Definition raise {A : Type} (e : exn) : Py A := λ σ, (Raise e, σ).

(** [self.coordinator] *)
Definition coordinator : Py MaxStorageDataUpdateCoordinator := λ σ, (Ok σ, σ).

(** [v[k]] for a string [k]. *)
Definition py_getitem (v : pyval) (k : string) : Py pyval :=
  match v with
  | PDict d =>
      match d !! k with
      | Some x => mret x
      | None => raise (KeyError k)
      end
  | _ => raise TypeError
  end.

(** [v == s] for a string literal [s]: of the values a snapshot holds, only
    the string with the same characters compares equal to a string. *)
Definition py_eq_str (v : pyval) (s : string) : bool :=
  match v with
  | PStr t => bool_decide (t = s)
  | _ => false
  end.

(** [d[k]] on a dict of strings. *)
Definition dict_getitem (d : gmap string string) (k : string) : Py string :=
  match d !! k with
  | Some x => mret x
  | None => raise (KeyError k)
  end.

(** A variable holding a value, as an expression. *)
Definition var (v : pyval) : Py pyval := mret v.
Coercion var : pyval >-> Py.

(** The two expression forms of the lambdas, on computations, so that a
    lambda's body reads as it does in the source. *)
Definition subscript (e : Py pyval) (k : string) : Py pyval :=
  v ← e; py_getitem v k.

Definition eq_str (e : Py pyval) (s : string) : Py pyval :=
  v ← e; mret (PBool (py_eq_str v s)).

Declare Scope py_scope.
Delimit Scope py_scope with py.
Bind Scope py_scope with Py.
Notation "e .[ k ]" := (subscript e k)
  (at level 1, left associativity, format "e .[ k ]") : py_scope.
Notation "e == s" := (eq_str e s) (at level 70, no associativity) : py_scope.

(** ** Sensor descriptions *)

Inductive unit_of_measurement : Type := PERCENTAGE | WATT_HOUR | WATT.
Inductive SensorStateClass : Type := MEASUREMENT.
Inductive SensorDeviceClass : Type := BATTERY | ENERGY_STORAGE | POWER.

(** [SensorEntityDescription] with the mixin's [value_fn] and the class's
    own [attr_fn]; of the base class, the fields the table sets. *)
Record MaxStorageSensorDescription : Type := {
  key : string;
  translation_key : string;
  icon : string;
  value_fn : pyval → Py pyval;
  native_unit_of_measurement : option unit_of_measurement;
  state_class : option SensorStateClass;
  device_class : option SensorDeviceClass;
  attr_fn : pyval → Py pyval
}.

(** The default of [attr_fn]: [lambda _: {}]. *)
Definition default_attr_fn : pyval → Py pyval := λ _, mret (PDict ∅).

Definition SENSOR_TYPES : list MaxStorageSensorDescription := [
  {| key := "batterySoC";
     translation_key := "battery_soc";
     icon := "mdi:battery";
     value_fn := λ data, (data.["batterySoC"])%py;
     native_unit_of_measurement := Some PERCENTAGE;
     state_class := Some MEASUREMENT;
     device_class := Some BATTERY;
     attr_fn := default_attr_fn |};
  {| key := "batteryCapacity";
     translation_key := "battery_capacity";
     icon := "mdi:battery";
     value_fn := λ data, (data.["batteryCapacity"])%py;
     native_unit_of_measurement := Some WATT_HOUR;
     state_class := Some MEASUREMENT;
     device_class := Some ENERGY_STORAGE;
     attr_fn := default_attr_fn |};
  {| key := "batteryPower";
     translation_key := "battery_power";
     icon := "mdi:battery";
     value_fn := λ data, (data.["batteryPower"])%py;
     native_unit_of_measurement := Some WATT;
     state_class := Some MEASUREMENT;
     device_class := Some POWER;
     attr_fn := default_attr_fn |};
  {| key := "gridPower";
     translation_key := "grid_power";
     icon := "mdi:transmission-tower";
     value_fn := λ data, (data.["gridPower"])%py;
     native_unit_of_measurement := Some WATT;
     state_class := Some MEASUREMENT;
     device_class := Some POWER;
     attr_fn := default_attr_fn |};
  {| key := "usagePower";
     translation_key := "usage_power";
     icon := "mdi:transmission-tower";
     value_fn := λ data, (data.["usagePower"])%py;
     native_unit_of_measurement := Some WATT;
     state_class := Some MEASUREMENT;
     device_class := Some POWER;
     attr_fn := default_attr_fn |};
  {| key := "plantPower";
     translation_key := "plant_power";
     icon := "mdi:solar-power";
     value_fn := λ data, (data.["plantPower"])%py;
     native_unit_of_measurement := Some WATT;
     state_class := Some MEASUREMENT;
     device_class := Some POWER;
     attr_fn := default_attr_fn |};
  {| key := "storage_dc_power";
     translation_key := "storageDCPower";
     icon := "mdi:solar-power";
     value_fn := λ data, (data.["storageDCPower"])%py;
     native_unit_of_measurement := Some WATT;
     state_class := Some MEASUREMENT;
     device_class := Some POWER;
     attr_fn := default_attr_fn |};
  {| key := "mppt1Power";
     translation_key := "mppt1_power";
     icon := "mdi:solar-power";
     value_fn := λ data, (data.["storageMPPT1Power"])%py;
     native_unit_of_measurement := Some WATT;
     state_class := Some MEASUREMENT;
     device_class := Some POWER;
     attr_fn := default_attr_fn |};
  {| key := "mppt2Power";
     translation_key := "mppt2_power";
     icon := "mdi:solar-power";
     value_fn := λ data, (data.["storageMPPT2Power"])%py;
     native_unit_of_measurement := Some WATT;
     state_class := Some MEASUREMENT;
     device_class := Some POWER;
     attr_fn := default_attr_fn |};
  {| key := "deviceInUpdate";
     translation_key := "device_in_update";
     icon := "mdi:update";
     value_fn := λ data,
       (data.["SpecialState"].["deviceInUpdate"] == "true")%py;
     native_unit_of_measurement := None;
     state_class := None;
     device_class := None;
     attr_fn := default_attr_fn |};
  {| key := "dcSwitchOff";
     translation_key := "dc_switch_off";
     icon := "mdi:toggle-switch-off";
     value_fn := λ data,
       (data.["SpecialState"].["dcSwitchOff"] == "true")%py;
     native_unit_of_measurement := None;
     state_class := None;
     device_class := None;
     attr_fn := default_attr_fn |};
  {| key := "gridCodeUnknown";
     translation_key := "grid_code_unknown";
     icon := "mdi:help";
     value_fn := λ data,
       (data.["SpecialState"].["gridCodeUnknown"] == "true")%py;
     native_unit_of_measurement := None;
     state_class := None;
     device_class := None;
     attr_fn := default_attr_fn |};
  {| key := "inWinterMode";
     translation_key := "in_winter_mode";
     icon := "mdi:snowflake";
     value_fn := λ data,
       (data.["SpecialState"].["inWinterMode"] == "true")%py;
     native_unit_of_measurement := None;
     state_class := None;
     device_class := None;
     attr_fn := default_attr_fn |};
  {| key := "inBMZEqualization";
     translation_key := "in_bmz_equalization";
     icon := "mdi:battery-50";
     value_fn := λ data,
       (data.["SpecialState"].["inBMZEqualization"] == "true")%py;
     native_unit_of_measurement := None;
     state_class := None;
     device_class := None;
     attr_fn := default_attr_fn |};
  {| key := "inPeakShaving";
     translation_key := "in_peak_shaving";
     icon := "mdi:flash";
     value_fn := λ data,
       (data.["SpecialState"].["inPeakShaving"] == "true")%py;
     native_unit_of_measurement := None;
     state_class := None;
     device_class := None;
     attr_fn := default_attr_fn |};
  {| key := "inOptimizationLimit";
     translation_key := "in_optimization_limit";
     icon := "mdi:tune";
     value_fn := λ data,
       (data.["SpecialState"].["inOptimizationLimit"] == "true")%py;
     native_unit_of_measurement := None;
     state_class := None;
     device_class := None;
     attr_fn := default_attr_fn |};
  {| key := "inBatteryCalibration";
     translation_key := "in_battery_calibration";
     icon := "mdi:battery-sync";
     value_fn := λ data,
       (data.["SpecialState"].["inBatteryCalibration"] == "true")%py;
     native_unit_of_measurement := None;
     state_class := None;
     device_class := None;
     attr_fn := default_attr_fn |};
  {| key := "noPowerMeter";
     translation_key := "no_power_meter";
     icon := "mdi:diameter-variant";
     value_fn := λ data,
       (data.["SpecialState"].["noPowerMeter"] == "true")%py;
     native_unit_of_measurement := None;
     state_class := None;
     device_class := None;
     attr_fn := default_attr_fn |};
  {| key := "gridError";
     translation_key := "grid_error";
     icon := "mdi:alert-circle-outline";
     value_fn := λ data,
       (data.["SpecialState"].["gridError"] == "true")%py;
     native_unit_of_measurement := None;
     state_class := None;
     device_class := None;
     attr_fn := default_attr_fn |};
  {| key := "gridLocked";
     translation_key := "grid_locked";
     icon := "mdi:lock";
     value_fn := λ data,
       (data.["SpecialState"].["gridLocked"] == "true")%py;
     native_unit_of_measurement := None;
     state_class := None;
     device_class := None;
     attr_fn := default_attr_fn |};
  {| key := "islandActive";
     translation_key := "island_active";
     icon := "mdi:island";
     value_fn := λ data,
       (data.["SpecialState"].["islandActive"] == "true")%py;
     native_unit_of_measurement := None;
     state_class := None;
     device_class := None;
     attr_fn := default_attr_fn |};
  {| key := "serviceMode";
     translation_key := "service_mode";
     icon := "mdi:toolbox-outline";
     value_fn := λ data,
       (data.["SpecialState"].["serviceMode"] == "true")%py;
     native_unit_of_measurement := None;
     state_class := None;
     device_class := None;
     attr_fn := default_attr_fn |}
].

(** ** The sensor entity *)

(** What [__init__] stores on the entity.  The coordinator itself is the
    shared object the computations run against. *)
Record MaxStorageSensor : Type := {
  entity_description : MaxStorageSensorDescription;
  _attr_unique_id : string;
  _attr_device_info : gmap string string
}.

(** [MaxStorageSensor.__init__]: the unique id is the f-string
    [f"{coordinator.api.device_info['Ident']}_{description.translation_key}"]. *)
Definition __init__ (description : MaxStorageSensorDescription)
    : Py MaxStorageSensor :=
  c ← coordinator;
  ident ← dict_getitem (api_device_info c) "Ident";
  mret {| entity_description := description;
          _attr_unique_id := ident +:+ "_" +:+ translation_key description;
          _attr_device_info := device_info c |}.

(** [MaxStorageSensor.native_value] *)
Definition native_value (self : MaxStorageSensor) : Py pyval :=
  c ← coordinator;
  value_fn (entity_description self) (data c).

(** [MaxStorageSensor.extra_state_attributes] *)
Definition extra_state_attributes (self : MaxStorageSensor) : Py pyval :=
  c ← coordinator;
  attr_fn (entity_description self) (data c).

(** The list comprehension of [async_setup_entry]: one sensor per
    description of the table, in the table's order; the first failing
    construction aborts the whole. *)
Fixpoint sensors_for (descriptions : list MaxStorageSensorDescription)
    : Py (list MaxStorageSensor) :=
  match descriptions with
  | [] => mret []
  | description :: rest =>
      s ← __init__ description;
      ss ← sensors_for rest;
      mret (s :: ss)
  end.

Definition async_setup_entry : Py (list MaxStorageSensor) :=
  sensors_for SENSOR_TYPES.

(** ** Purity of a projection

    What it means for a function of the snapshot, run against the shared
    coordinator, to be deterministic (its outcome is a function of its
    argument alone, whatever the state it runs in) and read-only (the
    coordinator, and with it the snapshot it holds, is as it was). *)
Definition deterministic (f : pyval → Py pyval) : Prop :=
  ∀ snap1 snap2 σ1 σ2, snap1 = snap2 → (f snap1 σ1).1 = (f snap2 σ2).1.

Definition read_only (f : pyval → Py pyval) : Prop :=
  ∀ snap σ, (f snap σ).2 = σ.

(** A computation that returns the same outcome in every state and leaves
    the state alone. *)
Definition stateless {A : Type} (m : Py A) : Prop :=
  ∃ r, ∀ σ, m σ = (r, σ).

(** The flag descriptions of the table are the ones that declare no device
    class (nor unit, nor state class): the diagnostic booleans. *)
Definition is_flag (description : MaxStorageSensorDescription) : bool :=
  bool_decide (device_class description = None).

(** The top-level key of the snapshot under which the device reports what
    a measurement description shows: the description's own [key], except
    for the three whose value the device reports under a [storage...]
    name. *)
Definition snapshot_key (description : MaxStorageSensorDescription) : string :=
  if bool_decide (key description = "storage_dc_power") then "storageDCPower"
  else if bool_decide (key description = "mppt1Power") then "storageMPPT1Power"
  else if bool_decide (key description = "mppt2Power") then "storageMPPT2Power"
  else key description.

(** ** Coordinators to test with *)

(** A coordinator of the device [ident] that has not completed an update. *)
Definition unset_coordinator (ident : string) : MaxStorageDataUpdateCoordinator :=
  {| data := PNone;
     api_device_info := {[ "Ident" := ident ]};
     device_info := ∅ |}.

(** A coordinator of the device [ident] holding the snapshot [snap]. *)
Definition polled_coordinator (ident : string) (snap : gmap string pyval)
    : MaxStorageDataUpdateCoordinator :=
  {| data := PDict snap;
     api_device_info := {[ "Ident" := ident ]};
     device_info := ∅ |}.

(** A sensor for the description at position [i] of the table, if any. *)
Definition sensor_at (i : nat) (uid : string) : option MaxStorageSensor :=
  d ← SENSOR_TYPES !! i;
  Some {| entity_description := d;
          _attr_unique_id := uid;
          _attr_device_info := ∅ |}.

(** ** The platform's entry point, on the host *)

(** [ConfigEntry]: of the host's config entry the platform reads the id. *)
Record ConfigEntry : Type := { entry_id : string }.

(** Modelled from the spec: Home Assistant is no code of this repository.
    Of [hass] the platform reads [hass.data], a dict of dicts in which the
    integration has stored the coordinator of each config entry;
    [added_entities] lists the batches of entities registered with the
    host so far, the oldest first. *)
Record HomeAssistant : Type := {
  hass_data :
    gmap string (gmap string (gmap string MaxStorageDataUpdateCoordinator));
  added_entities : list (list MaxStorageSensor)
}.

Definition Hass (A : Type) : Type :=
  HomeAssistant → result A * HomeAssistant.

(** [t] ends with [s]. *)
Fixpoint suffixb (s t : string) : bool :=
  if bool_decide (s = t) then true
  else match t with
       | EmptyString => false
       | String _ t' => suffixb s t'
       end.

Module Platform.
Section WithDomain.

(** [DOMAIN] of [const.py], which is not among the sources at hand. *)
Variable DOMAIN : string.

(** [hass.data[DOMAIN][config.entry_id]["coordinator"]] *)
Definition entry_coordinator (config : ConfigEntry) (hass : HomeAssistant)
    : result MaxStorageDataUpdateCoordinator :=
  match hass_data hass !! DOMAIN with
  | None => Raise (KeyError DOMAIN)
  | Some entries =>
      match entries !! entry_id config with
      | None => Raise (KeyError (entry_id config))
      | Some entry =>
          match entry !! "coordinator" with
          | None => Raise (KeyError "coordinator")
          | Some c => Ok c
          end
      end
  end.

(** The coordinator is an object of [hass.data]: what a computation makes
    of it is what [hass.data] holds afterwards. *)
Definition store_coordinator (config : ConfigEntry)
    (c : MaxStorageDataUpdateCoordinator) (hass : HomeAssistant)
    : HomeAssistant :=
  {| hass_data :=
       alter (alter (<[ "coordinator" := c ]>) (entry_id config)) DOMAIN
         (hass_data hass);
     added_entities := added_entities hass |}.

(** Modelled from the spec: the callback the host passes as
    [async_add_entities] when all goes well on its side: it registers the
    batch and returns. *)
Definition register_entities (sensors : list MaxStorageSensor) : Hass unit :=
  λ hass, (Ok (), {| hass_data := hass_data hass;
                     added_entities := added_entities hass ++ [sensors] |}).

(** [async_setup_entry(hass, config, async_add_entities)]: look the
    coordinator up, construct the sensors, hand them to the callback, whose
    outcome, a return or an exception, is the outcome of the whole.  (The
    debug log line has no part in the state modelled here.) *)
Definition async_setup_entry (config : ConfigEntry)
    (async_add_entities : list MaxStorageSensor → Hass unit) : Hass unit :=
  λ hass,
  match entry_coordinator config hass with
  | Raise e => (Raise e, hass)
  | Ok c =>
      match sensors_for SENSOR_TYPES c with
      | (Ok sensors, c') =>
          async_add_entities sensors (store_coordinator config c' hass)
      | (Raise e, c') => (Raise e, store_coordinator config c' hass)
      end
  end.

(** A callback that returns whatever it is given. *)
Definition never_raises (async_add_entities : list MaxStorageSensor → Hass unit)
    : Prop :=
  ∀ sensors hass, ∃ hass', async_add_entities sensors hass = (Ok (), hass').

End WithDomain.
End Platform.

(** A callback that registers the batch and then raises. *)
Definition register_then_fail (sensors : list MaxStorageSensor) : Hass unit :=
  λ hass, (Raise TypeError,
           {| hass_data := hass_data hass;
              added_entities := added_entities hass ++ [sensors] |}).

(** A host on which the integration [domain] has stored [c] for the config
    entry [id], and no entity is registered yet. *)
Definition host_with (domain id : string) (c : MaxStorageDataUpdateCoordinator)
    : HomeAssistant :=
  {| hass_data := {[ domain := {[ id := {[ "coordinator" := c ]} ]} ]};
     added_entities := [] |}.

(** A snapshot as the device sends it when all is well: the nine
    measurements and the [SpecialState] dict of thirteen flags. *)
Definition full_snapshot : gmap string pyval :=
  {[ "batterySoC" := PInt 87;
     "batteryCapacity" := PInt 10240;
     "batteryPower" := PInt 1500;
     "gridPower" := PInt (-230);
     "usagePower" := PInt 640;
     "plantPower" := PInt 2370;
     "storageDCPower" := PInt 1480;
     "storageMPPT1Power" := PInt 1210;
     "storageMPPT2Power" := PInt 1160;
     "SpecialState" := PDict
       {[ "deviceInUpdate" := PStr "false";
          "dcSwitchOff" := PStr "false";
          "gridCodeUnknown" := PStr "false";
          "inWinterMode" := PStr "true";
          "inBMZEqualization" := PStr "false";
          "inPeakShaving" := PStr "false";
          "inOptimizationLimit" := PStr "false";
          "inBatteryCalibration" := PStr "false";
          "noPowerMeter" := PStr "false";
          "gridError" := PStr "false";
          "gridLocked" := PStr "false";
          "islandActive" := PStr "false";
          "serviceMode" := PStr "false" ]} ]}.

(** A coordinator whose device info has no identity token. *)
Definition anonymous_coordinator : MaxStorageDataUpdateCoordinator :=
  {| data := PDict full_snapshot; api_device_info := ∅; device_info := ∅ |}.

(** * Properties *)

(** ** Unfolding the computations *)

Lemma native_value_eq (self : MaxStorageSensor) σ :
  native_value self σ = value_fn (entity_description self) (data σ) σ.
Proof. reflexivity. Qed.

Lemma extra_state_attributes_eq (self : MaxStorageSensor) σ :
  extra_state_attributes self σ = attr_fn (entity_description self) (data σ) σ.
Proof. reflexivity. Qed.

Lemma subscript_var (v : pyval) (k : string) σ :
  (v.[k])%py σ = py_getitem v k σ.
Proof. reflexivity. Qed.

Lemma py_getitem_present (d : gmap string pyval) (k : string) (x : pyval) σ :
  d !! k = Some x → py_getitem (PDict d) k σ = (Ok x, σ).
Proof. intros Hk. simpl. by rewrite Hk. Qed.

Lemma py_getitem_absent (d : gmap string pyval) (k : string) σ :
  d !! k = None → py_getitem (PDict d) k σ = (Raise (KeyError k), σ).
Proof. intros Hk. simpl. by rewrite Hk. Qed.

Lemma py_getitem_not_dict (v : pyval) (k : string) σ :
  (∀ d, v ≠ PDict d) → py_getitem v k σ = (Raise TypeError, σ).
Proof. intros Hv. destruct v; try reflexivity. by destruct (Hv d). Qed.

Lemma init_eq (description : MaxStorageSensorDescription) σ (ident : string) :
  api_device_info σ !! "Ident" = Some ident →
  __init__ description σ =
    (Ok {| entity_description := description;
           _attr_unique_id := ident +:+ "_" +:+ translation_key description;
           _attr_device_info := device_info σ |}, σ).
Proof.
  intros Hid. unfold __init__, coordinator, dict_getitem, mbind, Py_bind.
  by rewrite Hid.
Qed.

(** Case analysis over the table: one goal per description. *)
Ltac table_cases H :=
  repeat (apply elem_of_cons in H as [-> | H]);
  [.. | by apply elem_of_nil in H].

(** ** Strings *)

Lemma string_app_length (s t : string) :
  String.length (s +:+ t) = String.length s + String.length t.
Proof. induction s as [|a s IH]; simpl; [done | by rewrite IH]. Qed.

Lemma string_app_inv_tail (s1 s2 t : string) :
  s1 +:+ t = s2 +:+ t → s1 = s2.
Proof.
  revert s2. induction s1 as [|a s1 IH]; intros [|b s2] Heq.
  - done.
  - apply (f_equal String.length) in Heq.
    rewrite !string_app_length in Heq. simpl in Heq. lia.
  - apply (f_equal String.length) in Heq.
    rewrite !string_app_length in Heq. simpl in Heq. lia.
  - change (String a (s1 +:+ t) = String b (s2 +:+ t)) in Heq.
    injection Heq as -> Heq. f_equal. by apply IH.
Qed.

(** ** The table's keys *)

Lemma SENSOR_TYPES_key_NoDup : NoDup (key <$> SENSOR_TYPES).
Proof. compute_done. Qed.

Lemma SENSOR_TYPES_translation_key_NoDup :
  NoDup (translation_key <$> SENSOR_TYPES).
Proof. compute_done. Qed.

Lemma NoDup_fmap_lookup_ne {A B : Type} (f : A → B) (l : list A)
    (i j : nat) (x y : A) :
  NoDup (f <$> l) → i ≠ j → l !! i = Some x → l !! j = Some y → f x ≠ f y.
Proof.
  intros Hnd Hij Hi Hj Heq. apply Hij.
  apply (NoDup_lookup (f <$> l) i j (f x)); [done | |].
  - by rewrite list_lookup_fmap, Hi.
  - by rewrite list_lookup_fmap, Hj, Heq.
Qed.

(** ** C5: the keys of the table *)

(** C5.  Any two descriptions at different positions of [SENSOR_TYPES] have
    different [key]s: no two descriptions share a key. *)
Theorem SENSOR_TYPES_key_unique (i j : nat) (d1 d2 : MaxStorageSensorDescription) :
  SENSOR_TYPES !! i = Some d1 →
  SENSOR_TYPES !! j = Some d2 →
  i ≠ j →
  key d1 ≠ key d2.
Proof.
  intros Hi Hj Hij.
  exact (NoDup_fmap_lookup_ne key SENSOR_TYPES i j d1 d2
           SENSOR_TYPES_key_NoDup Hij Hi Hj).
Qed.

Lemma SENSOR_TYPES_key_unique_witness :
  ∃ d1 d2, SENSOR_TYPES !! 2 = Some d1 ∧ SENSOR_TYPES !! 6 = Some d2 ∧
           key d1 = "batteryPower" ∧ key d2 = "storage_dc_power" ∧
           key d1 ≠ key d2.
Proof.
  eexists _, _. split; [reflexivity|]. split; [reflexivity|].
  split; [reflexivity|]. split; [reflexivity|].
  apply (SENSOR_TYPES_key_unique 2 6); [reflexivity | reflexivity | lia].
Defined.

(** ** C2, C8, C9: unique ids *)

(** C2, as the code has it.  On a coordinator whose device reports the
    identity token [ident], constructing the sensor of a description
    succeeds, leaves the coordinator as it was, and gives the unique id
    [ident], an underscore, and the description's [translation_key] (not
    its [key]). *)
Theorem unique_id_ident_translation_key
    (d : MaxStorageSensorDescription) σ (ident : string) :
  api_device_info σ !! "Ident" = Some ident →
  ∃ s, __init__ d σ = (Ok s, σ) ∧
       entity_description s = d ∧
       _attr_unique_id s = ident +:+ "_" +:+ translation_key d.
Proof. intros Hid. eexists. split; [by apply init_eq|]. done. Qed.

Lemma unique_id_ident_translation_key_witness :
  ∃ d, SENSOR_TYPES !! 6 = Some d ∧
  ∃ s, __init__ d (unset_coordinator "MS-0001") =
         (Ok s, unset_coordinator "MS-0001") ∧
       entity_description s = d ∧
       _attr_unique_id s = "MS-0001_storageDCPower".
Proof.
  eexists. split; [reflexivity|].
  exact (unique_id_ident_translation_key _ (unset_coordinator "MS-0001")
           "MS-0001" eq_refl).
Defined.

(** C2 as stated fails: for the device [MS-0001] and the description with
    key [storage_dc_power], the unique id is [MS-0001_storageDCPower], which
    is not the token followed by the key. *)
Lemma unique_id_not_ident_key :
  ∃ d, SENSOR_TYPES !! 6 = Some d ∧ key d = "storage_dc_power" ∧
  ∃ s, __init__ d (unset_coordinator "MS-0001") =
         (Ok s, unset_coordinator "MS-0001") ∧
       _attr_unique_id s = "MS-0001_storageDCPower" ∧
       _attr_unique_id s ≠ "MS-0001" +:+ key d.
Proof.
  eexists. split; [reflexivity|]. split; [reflexivity|].
  eexists. split; [reflexivity|]. split; [reflexivity|].
  discriminate.
Qed.

(** C8.  One description, two devices whose identity tokens differ: both
    sensors are constructed, and their unique ids differ. *)
Theorem unique_id_differs_across_devices
    (d : MaxStorageSensorDescription) σ1 σ2 (ident1 ident2 : string) :
  api_device_info σ1 !! "Ident" = Some ident1 →
  api_device_info σ2 !! "Ident" = Some ident2 →
  ident1 ≠ ident2 →
  ∃ s1 s2, __init__ d σ1 = (Ok s1, σ1) ∧ __init__ d σ2 = (Ok s2, σ2) ∧
           _attr_unique_id s1 ≠ _attr_unique_id s2.
Proof.
  intros H1 H2 Hne. eexists _, _.
  split; [by apply init_eq|]. split; [by apply init_eq|].
  simpl. intros Heq. apply Hne. by apply string_app_inv_tail in Heq.
Qed.

Lemma unique_id_differs_across_devices_witness :
  ∃ d, SENSOR_TYPES !! 0 = Some d ∧
  ∃ s1 s2,
    __init__ d (unset_coordinator "MS-0001") =
      (Ok s1, unset_coordinator "MS-0001") ∧
    __init__ d (unset_coordinator "MS-0002") =
      (Ok s2, unset_coordinator "MS-0002") ∧
    _attr_unique_id s1 ≠ _attr_unique_id s2.
Proof.
  eexists. split; [reflexivity|].
  apply (unique_id_differs_across_devices _ _ _ "MS-0001" "MS-0002");
    [reflexivity | reflexivity | discriminate].
Defined.

(** C9.  Any two descriptions at different positions of [SENSOR_TYPES] have
    different [translation_key]s, and so, on any one device, the sensors
    constructed from them have different unique ids. *)
Theorem SENSOR_TYPES_translation_key_unique
    (i j : nat) (d1 d2 : MaxStorageSensorDescription) :
  SENSOR_TYPES !! i = Some d1 →
  SENSOR_TYPES !! j = Some d2 →
  i ≠ j →
  translation_key d1 ≠ translation_key d2 ∧
  ∀ σ ident, api_device_info σ !! "Ident" = Some ident →
    ∃ s1 s2, __init__ d1 σ = (Ok s1, σ) ∧ __init__ d2 σ = (Ok s2, σ) ∧
             _attr_unique_id s1 ≠ _attr_unique_id s2.
Proof.
  intros Hi Hj Hij.
  assert (translation_key d1 ≠ translation_key d2) as Hne.
  { exact (NoDup_fmap_lookup_ne translation_key SENSOR_TYPES i j d1 d2
             SENSOR_TYPES_translation_key_NoDup Hij Hi Hj). }
  split; [done|]. intros σ ident Hid. eexists _, _.
  split; [by apply init_eq|]. split; [by apply init_eq|].
  simpl. intros Heq. apply Hne.
  apply (inj (String.app ident)) in Heq.
  by apply (inj (String.app "_")) in Heq.
Qed.

Lemma SENSOR_TYPES_translation_key_unique_witness :
  ∃ d1 d2, SENSOR_TYPES !! 5 = Some d1 ∧ SENSOR_TYPES !! 6 = Some d2 ∧
    translation_key d1 ≠ translation_key d2 ∧
    ∀ σ ident, api_device_info σ !! "Ident" = Some ident →
      ∃ s1 s2, __init__ d1 σ = (Ok s1, σ) ∧ __init__ d2 σ = (Ok s2, σ) ∧
               _attr_unique_id s1 ≠ _attr_unique_id s2.
Proof.
  eexists _, _. split; [reflexivity|]. split; [reflexivity|].
  apply (SENSOR_TYPES_translation_key_unique 5 6);
    [reflexivity | reflexivity | lia].
Defined.

(** ** C1: no snapshot yet *)

(** C1, as the code has it.  While the coordinator holds no snapshot
    ([data] is [None]), [native_value] of a sensor of any description of the
    table raises [TypeError]: every [value_fn] subscripts its argument, and
    [None] cannot be subscripted.  The coordinator is left as it was. *)
Theorem native_value_unset (self : MaxStorageSensor) σ :
  entity_description self ∈ SENSOR_TYPES →
  data σ = PNone →
  native_value self σ = (Raise TypeError, σ).
Proof.
  intros Hd Hdata. rewrite native_value_eq, Hdata.
  destruct self as [d uid di]; simpl in *.
  table_cases Hd; reflexivity.
Qed.

Lemma native_value_unset_witness :
  ∃ s, sensor_at 0 "MS-0001_battery_soc" = Some s ∧
       native_value s (unset_coordinator "MS-0001") =
         (Raise TypeError, unset_coordinator "MS-0001").
Proof.
  eexists. split; [reflexivity|].
  apply native_value_unset; [|reflexivity].
  apply list_elem_of_lookup. exists 0. reflexivity.
Defined.

(** C1 as stated fails: before the first update the battery sensor's
    [native_value] does not return a value, [None] or other; it raises. *)
Lemma native_value_unset_raises :
  ∃ s, sensor_at 0 "MS-0001_battery_soc" = Some s ∧
       key (entity_description s) = "batterySoC" ∧
       (native_value s (unset_coordinator "MS-0001")).1 = Raise TypeError ∧
       ∀ v, (native_value s (unset_coordinator "MS-0001")).1 ≠ Ok v.
Proof.
  eexists. split; [reflexivity|]. split; [reflexivity|].
  split; [reflexivity|]. intros v. discriminate.
Qed.

(** ** C3: the flags *)

(** C3.  For a flag description of the table and a snapshot whose
    [SpecialState] dict holds the description's flag as a string [flag],
    [native_value] returns [True] when [flag] is exactly ["true"] and
    [False] for every other string; the coordinator is left as it was. *)
Theorem flag_exact_match (self : MaxStorageSensor) σ
    (snap special : gmap string pyval) (flag : string) :
  entity_description self ∈ SENSOR_TYPES →
  is_flag (entity_description self) = true →
  data σ = PDict snap →
  snap !! "SpecialState" = Some (PDict special) →
  special !! key (entity_description self) = Some (PStr flag) →
  (flag = "true" → native_value self σ = (Ok (PBool true), σ)) ∧
  (flag ≠ "true" → native_value self σ = (Ok (PBool false), σ)).
Proof.
  intros Hd Hflag Hdata Hsnap Hspecial.
  assert (native_value self σ = (Ok (PBool (bool_decide (flag = "true"))), σ))
    as ->.
  { rewrite native_value_eq, Hdata.
    destruct self as [d uid di]; simpl in *.
    table_cases Hd; try discriminate Hflag;
      simpl in Hspecial |- *;
      unfold eq_str, subscript, var, mbind, Py_bind, mret, Py_ret; simpl;
      rewrite Hsnap; simpl; rewrite Hspecial; reflexivity. }
  split; intros Hf.
  - by rewrite bool_decide_eq_true_2.
  - by rewrite bool_decide_eq_false_2.
Qed.

Lemma flag_exact_match_witness :
  ∃ s, sensor_at 20 "MS-0001_island_active" = Some s ∧
    key (entity_description s) = "islandActive" ∧
    native_value s
      (polled_coordinator "MS-0001"
         {[ "SpecialState" := PDict {[ "islandActive" := PStr "true" ]} ]}) =
      (Ok (PBool true),
       polled_coordinator "MS-0001"
         {[ "SpecialState" := PDict {[ "islandActive" := PStr "true" ]} ]}) ∧
    native_value s
      (polled_coordinator "MS-0001"
         {[ "SpecialState" := PDict {[ "islandActive" := PStr "True" ]} ]}) =
      (Ok (PBool false),
       polled_coordinator "MS-0001"
         {[ "SpecialState" := PDict {[ "islandActive" := PStr "True" ]} ]}).
Proof.
  eexists. split; [reflexivity|]. split; [reflexivity|]. split.
  - match goal with |- native_value ?s ?σ = _ =>
      refine (proj1 (flag_exact_match s σ _ _ "true" _
                       eq_refl eq_refl eq_refl eq_refl) eq_refl)
    end.
    apply list_elem_of_lookup. exists 20. reflexivity.
  - match goal with |- native_value ?s ?σ = _ =>
      refine (proj2 (flag_exact_match s σ _ _ "True" _
                       eq_refl eq_refl eq_refl eq_refl) _); [|discriminate]
    end.
    apply list_elem_of_lookup. exists 20. reflexivity.
Defined.

(** ** C4: a snapshot without [SpecialState] *)

(** C4.  On a snapshot that is a dict without the key [SpecialState]:
    the sensor of a flag description raises the missing-field error
    [KeyError "SpecialState"], out of [native_value] itself; the sensor of
    any other description of the table reads the snapshot at its snapshot
    key, a top-level key other than [SpecialState], and nothing else, and
    returns the snapshot's value there whenever the snapshot has it.
    Either way the coordinator is left as it was, so what one sensor does
    is of no consequence to the next. *)
Theorem missing_SpecialState (self : MaxStorageSensor) σ
    (snap : gmap string pyval) :
  entity_description self ∈ SENSOR_TYPES →
  data σ = PDict snap →
  snap !! "SpecialState" = None →
  (is_flag (entity_description self) = true →
     native_value self σ = (Raise (KeyError "SpecialState"), σ)) ∧
  (is_flag (entity_description self) = false →
     snapshot_key (entity_description self) ≠ "SpecialState" ∧
     (∀ v, value_fn (entity_description self) v =
             (v.[snapshot_key (entity_description self)])%py) ∧
     ∀ x, snap !! snapshot_key (entity_description self) = Some x →
          native_value self σ = (Ok x, σ)).
Proof.
  intros Hd Hdata Hsnap. rewrite native_value_eq, Hdata.
  destruct self as [d uid di]; simpl in *.
  table_cases Hd; (split; intros Hflag; [try discriminate Hflag|]);
    try discriminate Hflag.
  all: try (simpl;
            unfold eq_str, subscript, var, mbind, Py_bind, mret, Py_ret; simpl;
            by rewrite Hsnap).
  all: split; [discriminate|]; (split; [intros v; reflexivity|]);
       intros x Hx; simpl; rewrite subscript_var;
       apply py_getitem_present; exact Hx.
Qed.

Lemma missing_SpecialState_witness :
  ∃ flag power,
    sensor_at 9 "MS-0001_device_in_update" = Some flag ∧
    sensor_at 2 "MS-0001_battery_power" = Some power ∧
    native_value flag
      (polled_coordinator "MS-0001" {[ "batteryPower" := PInt 1500 ]}) =
      (Raise (KeyError "SpecialState"),
       polled_coordinator "MS-0001" {[ "batteryPower" := PInt 1500 ]}) ∧
    native_value power
      (polled_coordinator "MS-0001" {[ "batteryPower" := PInt 1500 ]}) =
      (Ok (PInt 1500),
       polled_coordinator "MS-0001" {[ "batteryPower" := PInt 1500 ]}).
Proof.
  eexists _, _. split; [reflexivity|]. split; [reflexivity|]. split.
  - match goal with |- native_value ?s ?σ = _ =>
      refine (proj1 (missing_SpecialState s σ _ _ eq_refl eq_refl) eq_refl)
    end.
    apply list_elem_of_lookup. exists 9. reflexivity.
  - match goal with |- native_value ?s ?σ = _ =>
      refine (proj2 (proj2 (proj2 (missing_SpecialState s σ _ _ eq_refl eq_refl)
                              eq_refl)) (PInt 1500) eq_refl)
    end.
    apply list_elem_of_lookup. exists 2. reflexivity.
Defined.

(** ** C6: numeric passthrough *)

(** C6.  The sensor of the description with key [batteryPower], on a
    snapshot that maps ["batteryPower"] to [v], returns [v] itself, a
    number as it came, and leaves the coordinator as it was. *)
Theorem battery_power_passthrough (self : MaxStorageSensor) σ
    (snap : gmap string pyval) (v : pyval) :
  entity_description self ∈ SENSOR_TYPES →
  key (entity_description self) = "batteryPower" →
  data σ = PDict snap →
  snap !! "batteryPower" = Some v →
  native_value self σ = (Ok v, σ).
Proof.
  intros Hd Hkey Hdata Hsnap. rewrite native_value_eq, Hdata.
  destruct self as [d uid di]; simpl in *.
  table_cases Hd; try discriminate Hkey.
  simpl. rewrite subscript_var. by apply py_getitem_present.
Qed.

Lemma battery_power_passthrough_witness :
  ∃ s, sensor_at 2 "MS-0001_battery_power" = Some s ∧
    native_value s
      (polled_coordinator "MS-0001" {[ "batteryPower" := PInt 1500 ]}) =
      (Ok (PInt 1500),
       polled_coordinator "MS-0001" {[ "batteryPower" := PInt 1500 ]}).
Proof.
  eexists. split; [reflexivity|].
  match goal with |- native_value ?s ?σ = _ =>
    refine (battery_power_passthrough s σ _ _ _ eq_refl eq_refl eq_refl)
  end.
  apply list_elem_of_lookup. exists 2. reflexivity.
Defined.

(** ** C7: attributes *)

(** C7.  Every description of the table has the default [attr_fn], which
    returns the empty dict for every argument, [None] included; so
    [extra_state_attributes] returns the empty dict in every state of the
    coordinator, also before the first update. *)
Theorem no_extra_attributes (self : MaxStorageSensor) σ :
  entity_description self ∈ SENSOR_TYPES →
  (∀ v σ', attr_fn (entity_description self) v σ' = (Ok (PDict ∅), σ')) ∧
  extra_state_attributes self σ = (Ok (PDict ∅), σ) ∧
  (data σ = PNone → extra_state_attributes self σ = (Ok (PDict ∅), σ)).
Proof.
  intros Hd. rewrite extra_state_attributes_eq.
  destruct self as [d uid di]; simpl in *.
  table_cases Hd; done.
Qed.

Lemma no_extra_attributes_witness :
  ∃ s, sensor_at 20 "MS-0001_island_active" = Some s ∧
    (∀ v σ', attr_fn (entity_description s) v σ' = (Ok (PDict ∅), σ')) ∧
    extra_state_attributes s (unset_coordinator "MS-0001") =
      (Ok (PDict ∅), unset_coordinator "MS-0001") ∧
    (data (unset_coordinator "MS-0001") = PNone →
     extra_state_attributes s (unset_coordinator "MS-0001") =
       (Ok (PDict ∅), unset_coordinator "MS-0001")).
Proof.
  eexists. split; [reflexivity|].
  apply no_extra_attributes.
  apply list_elem_of_lookup. exists 20. reflexivity.
Defined.

(** ** C10: the projections are pure *)

Lemma stateless_ret {A : Type} (a : A) : stateless (mret a).
Proof. by exists (Ok a). Qed.

Lemma stateless_raise {A : Type} (e : exn) : stateless (raise (A := A) e).
Proof. by exists (Raise e). Qed.

Lemma stateless_bind {A B : Type} (m : Py A) (f : A → Py B) :
  stateless m → (∀ a, stateless (f a)) → stateless (m ≫= f).
Proof.
  intros [r Hm] Hf. destruct r as [a|e].
  - destruct (Hf a) as [r' Hfa]. exists r'. intros σ.
    unfold mbind, Py_bind. by rewrite Hm, Hfa.
  - exists (Raise e). intros σ. unfold mbind, Py_bind. by rewrite Hm.
Qed.

Lemma stateless_py_getitem (v : pyval) (k : string) :
  stateless (py_getitem v k).
Proof.
  destruct v; try apply stateless_raise.
  simpl. destruct (d !! k); [apply stateless_ret | apply stateless_raise].
Qed.

Lemma stateless_var (v : pyval) : stateless (var v).
Proof. apply stateless_ret. Qed.

Lemma stateless_subscript (e : Py pyval) (k : string) :
  stateless e → stateless (e.[k])%py.
Proof.
  intros He. apply stateless_bind; [done|].
  intros v. apply stateless_py_getitem.
Qed.

Lemma stateless_eq_str (e : Py pyval) (s : string) :
  stateless e → stateless (e == s)%py.
Proof.
  intros He. apply stateless_bind; [done|].
  intros v. apply stateless_ret.
Qed.

Lemma stateless_default_attr_fn (v : pyval) : stateless (default_attr_fn v).
Proof. apply stateless_ret. Qed.

Lemma stateless_pure (f : pyval → Py pyval) :
  (∀ v, stateless (f v)) → deterministic f ∧ read_only f.
Proof.
  intros Hf. split.
  - intros snap1 snap2 σ1 σ2 <-. destruct (Hf snap1) as [r Hr].
    by rewrite !Hr.
  - intros snap σ. destruct (Hf snap) as [r Hr]. by rewrite Hr.
Qed.

Create HintDb stateless.
#[local] Hint Resolve stateless_var stateless_subscript stateless_eq_str
  stateless_default_attr_fn : stateless.

(** C10.  For every description of the table, [value_fn] and [attr_fn] are
    deterministic, equal snapshots giving equal outcomes in whatever state
    of the coordinator they run, and read-only, the coordinator and the
    snapshot it holds being afterwards what they were before. *)
Theorem projections_pure (d : MaxStorageSensorDescription) :
  d ∈ SENSOR_TYPES →
  deterministic (value_fn d) ∧ read_only (value_fn d) ∧
  deterministic (attr_fn d) ∧ read_only (attr_fn d).
Proof.
  intros Hd.
  assert ((∀ v, stateless (value_fn d v)) ∧ (∀ v, stateless (attr_fn d v)))
    as [Hv Ha].
  { table_cases Hd; split; intros v; simpl; auto with stateless. }
  destruct (stateless_pure _ Hv), (stateless_pure _ Ha). done.
Qed.

Lemma projections_pure_witness :
  ∃ d, SENSOR_TYPES !! 20 = Some d ∧
    deterministic (value_fn d) ∧ read_only (value_fn d) ∧
    deterministic (attr_fn d) ∧ read_only (attr_fn d).
Proof.
  eexists. split; [reflexivity|].
  apply projections_pure.
  apply list_elem_of_lookup. exists 20. reflexivity.
Defined.

(** ** Setting up a device *)

Section Setup.
Variable σ : MaxStorageDataUpdateCoordinator.
Variable ident : string.
Hypothesis Hident : api_device_info σ !! "Ident" = Some ident.

(** The sensor [__init__] builds on [σ] for a description. *)
Let sensor_of (d : MaxStorageSensorDescription) : MaxStorageSensor :=
  {| entity_description := d;
     _attr_unique_id := ident +:+ "_" +:+ translation_key d;
     _attr_device_info := device_info σ |}.

Lemma sensors_for_eq (descriptions : list MaxStorageSensorDescription) :
  sensors_for descriptions σ = (Ok (sensor_of <$> descriptions), σ).
Proof using Hident.
  induction descriptions as [|d rest IH]; [done|].
  simpl. unfold mbind at 1, Py_bind at 1.
  rewrite (init_eq d σ ident Hident).
  unfold mbind at 1, Py_bind at 1. by rewrite IH.
Qed.

(** The sensors of one device, one per description and in the table's
    order, have pairwise different unique ids. *)
Lemma async_setup_entry_unique_ids :
  ∃ sensors, async_setup_entry σ = (Ok sensors, σ) ∧
    entity_description <$> sensors = SENSOR_TYPES ∧
    NoDup (_attr_unique_id <$> sensors).
Proof using Hident.
  exists (sensor_of <$> SENSOR_TYPES). split; [apply sensors_for_eq|].
  split.
  - rewrite <- list_fmap_compose. apply list_fmap_id.
  - rewrite <- list_fmap_compose.
    change (_attr_unique_id ∘ sensor_of)
      with ((λ t, ident +:+ "_" +:+ t) ∘ translation_key).
    rewrite list_fmap_compose. apply NoDup_fmap_2.
    + intros t1 t2 Heq. apply (inj (String.app ident)) in Heq.
      by apply (inj (String.app "_")) in Heq.
    + apply SENSOR_TYPES_translation_key_NoDup.
Qed.
End Setup.

(** ** The model on small inputs *)

Example island_active_not_a_string :
  ∃ s, sensor_at 20 "MS-0001_island_active" = Some s ∧
    (native_value s
       (polled_coordinator "MS-0001"
          {[ "SpecialState" := PDict {[ "islandActive" := PBool true ]} ]})).1
    = Ok (PBool false).
Proof. eexists. split; reflexivity. Qed.

Example island_active_flag_absent :
  ∃ s, sensor_at 20 "MS-0001_island_active" = Some s ∧
    (native_value s
       (polled_coordinator "MS-0001"
          {[ "SpecialState" := PDict {[ "serviceMode" := PStr "true" ]} ]})).1
    = Raise (KeyError "islandActive").
Proof. eexists. split; reflexivity. Qed.

Example island_active_SpecialState_not_a_dict :
  ∃ s, sensor_at 20 "MS-0001_island_active" = Some s ∧
    (native_value s
       (polled_coordinator "MS-0001" {[ "SpecialState" := PStr "true" ]})).1
    = Raise TypeError.
Proof. eexists. split; reflexivity. Qed.

Example mppt1_reads_storageMPPT1Power :
  ∃ s, sensor_at 7 "MS-0001_mppt1_power" = Some s ∧
    key (entity_description s) = "mppt1Power" ∧
    (native_value s
       (polled_coordinator "MS-0001" {[ "storageMPPT1Power" := PInt 320 ]})).1
    = Ok (PInt 320) ∧
    (native_value s
       (polled_coordinator "MS-0001" {[ "mppt1Power" := PInt 320 ]})).1
    = Raise (KeyError "storageMPPT1Power").
Proof. eexists. repeat split; reflexivity. Qed.

(** * Further properties of the platform *)

(** ** Constructing a sensor *)

Lemma init_inv (d : MaxStorageSensorDescription) σ σ' (s : MaxStorageSensor) :
  __init__ d σ = (Ok s, σ') →
  ∃ ident, api_device_info σ !! "Ident" = Some ident ∧ σ' = σ ∧
    s = {| entity_description := d;
           _attr_unique_id := ident +:+ "_" +:+ translation_key d;
           _attr_device_info := device_info σ |}.
Proof.
  unfold __init__, coordinator, dict_getitem, mbind, Py_bind.
  destruct (api_device_info σ !! "Ident") as [ident|] eqn:Hid; simpl.
  - intros [= <- <-]. by exists ident.
  - discriminate.
Qed.

Lemma init_no_ident (d : MaxStorageSensorDescription) σ :
  api_device_info σ !! "Ident" = None →
  __init__ d σ = (Raise (KeyError "Ident"), σ).
Proof.
  intros Hid. unfold __init__, coordinator, dict_getitem, mbind, Py_bind.
  by rewrite Hid.
Qed.

(** ** Unique ids across devices and descriptions *)

Lemma string_app_empty_r (s : string) : s +:+ "" = s.
Proof.
  induction s as [|a s IH]; [done|].
  change (String a (s +:+ "") = String a s). by rewrite IH.
Qed.

Lemma string_app_assoc (s t u : string) : (s +:+ t) +:+ u = s +:+ t +:+ u.
Proof.
  induction s as [|a s IH]; [done|].
  change (String a ((s +:+ t) +:+ u) = String a (s +:+ t +:+ u)).
  by rewrite IH.
Qed.

(** Two ways of cutting one string: the longer head is the shorter one and
    a piece [w], which the other tail starts with. *)
Lemma string_app_eq_cases (a b x y : string) :
  a +:+ x = b +:+ y →
  ∃ w, (a = b +:+ w ∧ y = w +:+ x) ∨ (b = a +:+ w ∧ x = w +:+ y).
Proof.
  revert b. induction a as [|c a IH]; intros b Heq.
  - exists b. right. done.
  - destruct b as [|c' b].
    + exists (String c a). left. done.
    + change (String c (a +:+ x) = String c' (b +:+ y)) in Heq.
      injection Heq as <- Heq. destruct (IH b Heq) as [w [[-> ->]|[-> ->]]];
        exists w; [left | right]; done.
Qed.

Lemma suffixb_eq (s t : string) :
  suffixb s t =
    if bool_decide (s = t) then true
    else match t with
         | EmptyString => false
         | String _ t' => suffixb s t'
         end.
Proof. by destruct t. Qed.

Lemma suffixb_app (w s : string) : suffixb s (w +:+ s) = true.
Proof.
  induction w as [|c w IH]; rewrite suffixb_eq.
  - change ("" +:+ s) with s. by rewrite bool_decide_eq_true_2.
  - change (String c w +:+ s) with (String c (w +:+ s)).
    destruct (bool_decide _); [done | exact IH].
Qed.

(** No translation key of the table ends with an underscore and another
    translation key of the table. *)
Lemma translation_key_no_suffix :
  Forall (λ t1, Forall (λ t2, suffixb ("_" +:+ t1) t2 = false)
                  (translation_key <$> SENSOR_TYPES))
    (translation_key <$> SENSOR_TYPES).
Proof. compute_done. Qed.

Lemma unique_id_parts (ident1 ident2 t1 t2 : string) :
  t1 ∈ translation_key <$> SENSOR_TYPES →
  t2 ∈ translation_key <$> SENSOR_TYPES →
  ident1 +:+ "_" +:+ t1 = ident2 +:+ "_" +:+ t2 →
  ident1 = ident2 ∧ t1 = t2.
Proof.
  intros Ht1 Ht2 Heq.
  assert (∀ u1 u2 w c, u1 ∈ translation_key <$> SENSOR_TYPES →
            u2 ∈ translation_key <$> SENSOR_TYPES →
            "_" +:+ u2 = String c w +:+ "_" +:+ u1 → False) as Hno.
  { intros u1 u2 w c Hu1 Hu2 Hcut.
    apply (f_equal (λ s, match s with String _ t => t | EmptyString => s end))
      in Hcut.
    change (u2 = w +:+ "_" +:+ u1) in Hcut. subst u2.
    pose proof translation_key_no_suffix as Hall.
    rewrite Forall_forall in Hall. specialize (Hall u1 Hu1).
    rewrite Forall_forall in Hall. specialize (Hall _ Hu2).
    by rewrite suffixb_app in Hall. }
  destruct (string_app_eq_cases _ _ _ _ Heq) as [w [[-> Hcut]|[-> Hcut]]].
  - destruct w as [|c w].
    + rewrite string_app_empty_r. split; [done|].
      change ("_" +:+ t2 = "_" +:+ t1) in Hcut.
      by apply (inj (String.app "_")) in Hcut.
    + destruct (Hno t1 t2 w c Ht1 Ht2 Hcut).
  - destruct w as [|c w].
    + rewrite string_app_empty_r. split; [done|].
      change ("_" +:+ t1 = "_" +:+ t2) in Hcut.
      by apply (inj (String.app "_")) in Hcut.
    + destruct (Hno t2 t1 w c Ht2 Ht1 Hcut).
Qed.

(** X1.  The unique id identifies the device and the description: if two
    sensors, constructed from descriptions of the table on any two
    coordinators, have the same unique id, then the two devices report the
    same identity token and the two descriptions are the same entry of the
    table.  Identity tokens may be any strings, underscores included. *)
Theorem unique_id_injective (i j : nat) (d1 d2 : MaxStorageSensorDescription)
    σ1 σ1' σ2 σ2' (s1 s2 : MaxStorageSensor) :
  SENSOR_TYPES !! i = Some d1 →
  SENSOR_TYPES !! j = Some d2 →
  __init__ d1 σ1 = (Ok s1, σ1') →
  __init__ d2 σ2 = (Ok s2, σ2') →
  _attr_unique_id s1 = _attr_unique_id s2 →
  api_device_info σ1 !! "Ident" = api_device_info σ2 !! "Ident" ∧ i = j.
Proof.
  intros Hi Hj H1 H2 Huid.
  apply init_inv in H1 as (ident1 & Hid1 & -> & ->).
  apply init_inv in H2 as (ident2 & Hid2 & -> & ->).
  simpl in Huid. rewrite Hid1, Hid2.
  apply unique_id_parts in Huid as [-> Htk].
  - split; [done|].
    apply (NoDup_lookup (translation_key <$> SENSOR_TYPES) i j
             (translation_key d1)).
    + apply SENSOR_TYPES_translation_key_NoDup.
    + by rewrite list_lookup_fmap, Hi.
    + by rewrite list_lookup_fmap, Hj, Htk.
  - apply list_elem_of_fmap. exists d1. split; [done|].
    apply list_elem_of_lookup. by exists i.
  - apply list_elem_of_fmap. exists d2. split; [done|].
    apply list_elem_of_lookup. by exists j.
Qed.

Lemma unique_id_injective_witness :
  ∃ d s1 s2,
    SENSOR_TYPES !! 2 = Some d ∧
    __init__ d (unset_coordinator "MS_0001") =
      (Ok s1, unset_coordinator "MS_0001") ∧
    __init__ d (polled_coordinator "MS_0001" ∅) =
      (Ok s2, polled_coordinator "MS_0001" ∅) ∧
    _attr_unique_id s1 = "MS_0001_battery_power" ∧
    _attr_unique_id s1 = _attr_unique_id s2 ∧
    api_device_info (unset_coordinator "MS_0001") !! "Ident" =
      api_device_info (polled_coordinator "MS_0001" ∅) !! "Ident" ∧
    2 = 2.
Proof.
  eexists _, _, _. split; [reflexivity|]. split; [reflexivity|].
  split; [reflexivity|]. split; [reflexivity|]. split; [reflexivity|].
  eapply (unique_id_injective 2 2 _ _
            (unset_coordinator "MS_0001") (unset_coordinator "MS_0001")
            (polled_coordinator "MS_0001" ∅) (polled_coordinator "MS_0001" ∅));
    reflexivity.
Defined.

(** ** What a sensor shows, in full *)

(** The body of a flag lambda, evaluated. *)
Lemma flag_expression_eq (v : pyval) (f : string) σ :
  (v.["SpecialState"].[f] == "true")%py σ =
    (match v with
     | PDict snap =>
         match snap !! "SpecialState" with
         | Some (PDict special) =>
             match special !! f with
             | Some x => Ok (PBool (py_eq_str x "true"))
             | None => Raise (KeyError f)
             end
         | Some _ => Raise TypeError
         | None => Raise (KeyError "SpecialState")
         end
     | _ => Raise TypeError
     end, σ).
Proof.
  unfold eq_str, subscript, var, mbind, Py_bind, mret, Py_ret.
  destruct v as [| | | | | |snap]; try reflexivity. simpl.
  destruct (snap !! "SpecialState") as [[| | | | | |special]|];
    try reflexivity.
  simpl. by destruct (special !! f).
Qed.

(** The body of a measurement lambda, evaluated. *)
Lemma measurement_expression_eq (v : pyval) (k : string) σ :
  (v.[k])%py σ =
    (match v with
     | PDict snap =>
         match snap !! k with
         | Some x => Ok x
         | None => Raise (KeyError k)
         end
     | _ => Raise TypeError
     end, σ).
Proof.
  rewrite subscript_var. destruct v as [| | | | | |snap]; try reflexivity.
  simpl. by destruct (snap !! k).
Qed.

Lemma flag_value_fn (d : MaxStorageSensorDescription) :
  d ∈ SENSOR_TYPES → is_flag d = true →
  ∀ v, value_fn d v = (v.["SpecialState"].[key d] == "true")%py.
Proof. intros Hd Hflag v. table_cases Hd; try discriminate Hflag; done. Qed.

Lemma measurement_value_fn (d : MaxStorageSensorDescription) :
  d ∈ SENSOR_TYPES → is_flag d = false →
  ∀ v, value_fn d v = (v.[snapshot_key d])%py.
Proof. intros Hd Hflag v. table_cases Hd; try discriminate Hflag; done. Qed.

Lemma flag_returns (self : MaxStorageSensor) σ
    (snap special : gmap string pyval) (x : pyval) :
  entity_description self ∈ SENSOR_TYPES →
  is_flag (entity_description self) = true →
  data σ = PDict snap →
  snap !! "SpecialState" = Some (PDict special) →
  special !! key (entity_description self) = Some x →
  native_value self σ = (Ok (PBool (py_eq_str x "true")), σ).
Proof.
  intros Hd Hflag Hdata Hss Hx.
  rewrite native_value_eq, (flag_value_fn _ Hd Hflag), flag_expression_eq.
  by rewrite Hdata, Hss, Hx.
Qed.

Lemma flag_returns_inv (self : MaxStorageSensor) σ σ' (v : pyval) :
  entity_description self ∈ SENSOR_TYPES →
  is_flag (entity_description self) = true →
  native_value self σ = (Ok v, σ') →
  ∃ snap special x,
    data σ = PDict snap ∧
    snap !! "SpecialState" = Some (PDict special) ∧
    special !! key (entity_description self) = Some x ∧
    v = PBool (py_eq_str x "true") ∧ σ' = σ.
Proof.
  intros Hd Hflag.
  rewrite native_value_eq, (flag_value_fn _ Hd Hflag), flag_expression_eq.
  destruct (data σ) as [| | | | | |snap]; try discriminate.
  destruct (snap !! "SpecialState") as [[| | | | | |special]|] eqn:Hss;
    try discriminate.
  destruct (special !! key (entity_description self)) as [x|] eqn:Hx;
    try discriminate.
  intros [= <- <-]. by exists snap, special, x.
Qed.

Lemma measurement_returns (self : MaxStorageSensor) σ
    (snap : gmap string pyval) (x : pyval) :
  entity_description self ∈ SENSOR_TYPES →
  is_flag (entity_description self) = false →
  data σ = PDict snap →
  snap !! snapshot_key (entity_description self) = Some x →
  native_value self σ = (Ok x, σ).
Proof.
  intros Hd Hflag Hdata Hx.
  rewrite native_value_eq, (measurement_value_fn _ Hd Hflag),
    measurement_expression_eq.
  by rewrite Hdata, Hx.
Qed.

Lemma measurement_returns_inv (self : MaxStorageSensor) σ σ' (v : pyval) :
  entity_description self ∈ SENSOR_TYPES →
  is_flag (entity_description self) = false →
  native_value self σ = (Ok v, σ') →
  ∃ snap, data σ = PDict snap ∧
          snap !! snapshot_key (entity_description self) = Some v ∧ σ' = σ.
Proof.
  intros Hd Hflag.
  rewrite native_value_eq, (measurement_value_fn _ Hd Hflag),
    measurement_expression_eq.
  destruct (data σ) as [| | | | | |snap]; try discriminate.
  destruct (snap !! snapshot_key (entity_description self)) as [x|] eqn:Hx;
    try discriminate.
  intros [= <- <-]. by exists snap.
Qed.

(** On a snapshot that has all the keys, every sensor returns. *)
Lemma all_sensors_return (self : MaxStorageSensor) σ
    (snap special : gmap string pyval) :
  entity_description self ∈ SENSOR_TYPES →
  data σ = PDict snap →
  snap !! "SpecialState" = Some (PDict special) →
  (∀ d, d ∈ SENSOR_TYPES →
     if is_flag d then is_Some (special !! key d)
     else is_Some (snap !! snapshot_key d)) →
  ∃ v, native_value self σ = (Ok v, σ).
Proof.
  intros Hd Hdata Hss Hkeys. specialize (Hkeys _ Hd).
  destruct (is_flag (entity_description self)) eqn:Hflag;
    destruct Hkeys as [x Hx]; eexists.
  - by apply (flag_returns self σ snap special x).
  - by apply (measurement_returns self σ snap x).
Qed.

(** X2.  A flag sensor shows [True] exactly when the snapshot is a dict
    whose [SpecialState] is a dict that holds the string ["true"] under the
    description's key.  A flag the device sends as a JSON boolean, or as a
    string in other letters, is never shown as [True]. *)
Theorem flag_true_iff (self : MaxStorageSensor) σ :
  entity_description self ∈ SENSOR_TYPES →
  is_flag (entity_description self) = true →
  native_value self σ = (Ok (PBool true), σ) ↔
  ∃ snap special,
    data σ = PDict snap ∧
    snap !! "SpecialState" = Some (PDict special) ∧
    special !! key (entity_description self) = Some (PStr "true").
Proof.
  intros Hd Hflag.
  rewrite native_value_eq, (flag_value_fn _ Hd Hflag), flag_expression_eq.
  split.
  - destruct (data σ) as [| | | | | |snap]; try discriminate.
    destruct (snap !! "SpecialState") as [[| | | | | |special]|] eqn:Hss;
      try discriminate.
    destruct (special !! key (entity_description self)) as [x|] eqn:Hx;
      try discriminate.
    intros [= Heq]. exists snap, special. repeat split; [done|].
    destruct x as [| | | |s| |]; try discriminate Heq.
    simpl in Heq. by apply bool_decide_eq_true_1 in Heq as ->.
  - intros (snap & special & -> & -> & ->). reflexivity.
Qed.

Lemma flag_true_iff_witness :
  ∃ s, sensor_at 21 "MS-0001_service_mode" = Some s ∧
    (native_value s
       (polled_coordinator "MS-0001"
          {[ "SpecialState" := PDict {[ "serviceMode" := PStr "true" ]} ]}) =
     (Ok (PBool true),
      polled_coordinator "MS-0001"
        {[ "SpecialState" := PDict {[ "serviceMode" := PStr "true" ]} ]}) ↔
     ∃ snap special,
       data (polled_coordinator "MS-0001"
          {[ "SpecialState" := PDict {[ "serviceMode" := PStr "true" ]} ]})
         = PDict snap ∧
       snap !! "SpecialState" = Some (PDict special) ∧
       special !! key (entity_description s) = Some (PStr "true")).
Proof.
  eexists. split; [reflexivity|].
  apply flag_true_iff; [|reflexivity].
  apply list_elem_of_lookup. exists 21. reflexivity.
Defined.

(** X3.  A flag sensor returns a value exactly when the snapshot is a dict
    whose [SpecialState] is a dict that has the description's key, and a
    value it returns is a boolean: [True] or [False], never the device's
    string. *)
Theorem flag_returns_iff (self : MaxStorageSensor) σ :
  entity_description self ∈ SENSOR_TYPES →
  is_flag (entity_description self) = true →
  ((∃ v, native_value self σ = (Ok v, σ)) ↔
   ∃ snap special x,
     data σ = PDict snap ∧
     snap !! "SpecialState" = Some (PDict special) ∧
     special !! key (entity_description self) = Some x) ∧
  (∀ v σ', native_value self σ = (Ok v, σ') → ∃ b, v = PBool b).
Proof.
  intros Hd Hflag.
  rewrite native_value_eq, (flag_value_fn _ Hd Hflag), flag_expression_eq.
  split; [split|].
  - intros [v Hv].
    destruct (data σ) as [| | | | | |snap]; try discriminate.
    destruct (snap !! "SpecialState") as [[| | | | | |special]|] eqn:Hss;
      try discriminate.
    destruct (special !! key (entity_description self)) as [x|] eqn:Hx;
      try discriminate.
    by exists snap, special, x.
  - intros (snap & special & x & -> & -> & ->). by eexists.
  - intros v σ' Hv.
    destruct (data σ) as [| | | | | |snap]; try discriminate.
    destruct (snap !! "SpecialState") as [[| | | | | |special]|];
      try discriminate.
    destruct (special !! key (entity_description self)); try discriminate.
    injection Hv as <- _. by eexists.
Qed.

Lemma flag_returns_iff_witness :
  ∃ s, sensor_at 12 "MS-0001_in_winter_mode" = Some s ∧
    ((∃ v, native_value s
             (polled_coordinator "MS-0001"
                {[ "SpecialState" := PDict {[ "inWinterMode" := PBool true ]} ]})
           = (Ok v,
              polled_coordinator "MS-0001"
                {[ "SpecialState" := PDict {[ "inWinterMode" := PBool true ]} ]}))
     ↔
     ∃ snap special x,
       data (polled_coordinator "MS-0001"
               {[ "SpecialState" := PDict {[ "inWinterMode" := PBool true ]} ]})
         = PDict snap ∧
       snap !! "SpecialState" = Some (PDict special) ∧
       special !! key (entity_description s) = Some x) ∧
    (∀ v σ',
       native_value s
         (polled_coordinator "MS-0001"
            {[ "SpecialState" := PDict {[ "inWinterMode" := PBool true ]} ]})
       = (Ok v, σ') → ∃ b, v = PBool b).
Proof.
  eexists. split; [reflexivity|].
  apply flag_returns_iff; [|reflexivity].
  apply list_elem_of_lookup. exists 12. reflexivity.
Defined.

(** X4.  When the snapshot has a [SpecialState] dict that lacks the
    description's key, a flag sensor raises [KeyError] with that key; when
    [SpecialState] is there but is no dict, it raises [TypeError].  The
    coordinator is left as it was. *)
Theorem flag_key_missing (self : MaxStorageSensor) σ
    (snap : gmap string pyval) (state : pyval) :
  entity_description self ∈ SENSOR_TYPES →
  is_flag (entity_description self) = true →
  data σ = PDict snap →
  snap !! "SpecialState" = Some state →
  (∀ special, state = PDict special →
     special !! key (entity_description self) = None →
     native_value self σ = (Raise (KeyError (key (entity_description self))), σ)) ∧
  ((∀ special, state ≠ PDict special) →
     native_value self σ = (Raise TypeError, σ)).
Proof.
  intros Hd Hflag Hdata Hss.
  rewrite native_value_eq, (flag_value_fn _ Hd Hflag), flag_expression_eq.
  rewrite Hdata, Hss. split.
  - intros special -> Hnone. by rewrite Hnone.
  - intros Hnd. destruct state; try reflexivity. by destruct (Hnd d).
Qed.

Lemma flag_key_missing_witness :
  ∃ s, sensor_at 18 "MS-0001_grid_error" = Some s ∧
    native_value s
      (polled_coordinator "MS-0001"
         {[ "SpecialState" := PDict {[ "gridLocked" := PStr "true" ]} ]}) =
    (Raise (KeyError "gridError"),
     polled_coordinator "MS-0001"
       {[ "SpecialState" := PDict {[ "gridLocked" := PStr "true" ]} ]}) ∧
    native_value s
      (polled_coordinator "MS-0001" {[ "SpecialState" := PList [] ]}) =
    (Raise TypeError,
     polled_coordinator "MS-0001" {[ "SpecialState" := PList [] ]}).
Proof.
  eexists. split; [reflexivity|]. split.
  - match goal with |- native_value ?s ?σ = _ =>
      refine (proj1 (flag_key_missing s σ _ _ _ eq_refl eq_refl eq_refl)
                _ eq_refl eq_refl)
    end.
    apply list_elem_of_lookup. exists 18. reflexivity.
  - match goal with |- native_value ?s ?σ = _ =>
      refine (proj2 (flag_key_missing s σ _ _ _ eq_refl eq_refl eq_refl) _)
    end.
    + apply list_elem_of_lookup. exists 18. reflexivity.
    + intros special. discriminate.
Defined.

(** X5.  A measurement sensor returns [v] exactly when the snapshot is a
    dict that holds [v] under the description's snapshot key; what it
    returns is the snapshot's value itself, whatever its type.  The
    snapshot key is the description's own key except for
    [storage_dc_power], [mppt1Power] and [mppt2Power]. *)
Theorem measurement_value_iff (self : MaxStorageSensor) σ (v : pyval) :
  entity_description self ∈ SENSOR_TYPES →
  is_flag (entity_description self) = false →
  native_value self σ = (Ok v, σ) ↔
  ∃ snap, data σ = PDict snap ∧
          snap !! snapshot_key (entity_description self) = Some v.
Proof.
  intros Hd Hflag.
  rewrite native_value_eq, (measurement_value_fn _ Hd Hflag),
    measurement_expression_eq.
  split.
  - destruct (data σ) as [| | | | | |snap]; try discriminate.
    destruct (snap !! snapshot_key (entity_description self)) as [x|] eqn:Hx;
      try discriminate.
    intros [= <-]. by exists snap.
  - intros (snap & -> & ->). reflexivity.
Qed.

Lemma measurement_value_iff_witness :
  ∃ s, sensor_at 8 "MS-0001_mppt2_power" = Some s ∧
    snapshot_key (entity_description s) = "storageMPPT2Power" ∧
    (native_value s
       (polled_coordinator "MS-0001" {[ "storageMPPT2Power" := PInt 412 ]}) =
     (Ok (PInt 412),
      polled_coordinator "MS-0001" {[ "storageMPPT2Power" := PInt 412 ]}) ↔
     ∃ snap,
       data (polled_coordinator "MS-0001"
               {[ "storageMPPT2Power" := PInt 412 ]}) = PDict snap ∧
       snap !! snapshot_key (entity_description s) = Some (PInt 412)).
Proof.
  eexists. split; [reflexivity|]. split; [reflexivity|].
  apply measurement_value_iff; [|reflexivity].
  apply list_elem_of_lookup. exists 8. reflexivity.
Defined.

(** X6.  When the snapshot is a dict without the description's snapshot
    key, a measurement sensor raises [KeyError] with that key: there is no
    default value.  The coordinator is left as it was. *)
Theorem measurement_key_missing (self : MaxStorageSensor) σ
    (snap : gmap string pyval) :
  entity_description self ∈ SENSOR_TYPES →
  is_flag (entity_description self) = false →
  data σ = PDict snap →
  snap !! snapshot_key (entity_description self) = None →
  native_value self σ =
    (Raise (KeyError (snapshot_key (entity_description self))), σ).
Proof.
  intros Hd Hflag Hdata Hnone.
  rewrite native_value_eq, (measurement_value_fn _ Hd Hflag),
    measurement_expression_eq.
  by rewrite Hdata, Hnone.
Qed.

Lemma measurement_key_missing_witness :
  ∃ s, sensor_at 6 "MS-0001_storageDCPower" = Some s ∧
    key (entity_description s) = "storage_dc_power" ∧
    native_value s
      (polled_coordinator "MS-0001" {[ "storage_dc_power" := PInt 90 ]}) =
    (Raise (KeyError "storageDCPower"),
     polled_coordinator "MS-0001" {[ "storage_dc_power" := PInt 90 ]}).
Proof.
  eexists. split; [reflexivity|]. split; [reflexivity|].
  match goal with |- native_value ?s ?σ = _ =>
    refine (measurement_key_missing s σ _ _ eq_refl eq_refl eq_refl)
  end.
  apply list_elem_of_lookup. exists 6. reflexivity.
Defined.

(** X7.  Whenever the coordinator's data is no dict, be it [None], a list,
    a string, a number or a boolean, every sensor of the table raises
    [TypeError] and leaves the coordinator as it was. *)
Theorem snapshot_not_dict (self : MaxStorageSensor) σ :
  entity_description self ∈ SENSOR_TYPES →
  (∀ snap, data σ ≠ PDict snap) →
  native_value self σ = (Raise TypeError, σ).
Proof.
  intros Hd Hnd. rewrite native_value_eq.
  destruct (is_flag (entity_description self)) eqn:Hflag.
  - rewrite (flag_value_fn _ Hd Hflag), flag_expression_eq.
    destruct (data σ) as [| | | | | |snap]; try reflexivity.
    by destruct (Hnd snap).
  - rewrite (measurement_value_fn _ Hd Hflag), measurement_expression_eq.
    destruct (data σ) as [| | | | | |snap]; try reflexivity.
    by destruct (Hnd snap).
Qed.

Lemma snapshot_not_dict_witness :
  ∃ s, sensor_at 3 "MS-0001_grid_power" = Some s ∧
    native_value s
      {| data := PList [PInt 1; PInt 2];
         api_device_info := {[ "Ident" := "MS-0001" ]};
         device_info := ∅ |} =
    (Raise TypeError,
     {| data := PList [PInt 1; PInt 2];
        api_device_info := {[ "Ident" := "MS-0001" ]};
        device_info := ∅ |}).
Proof.
  eexists. split; [reflexivity|].
  apply snapshot_not_dict.
  - apply list_elem_of_lookup. exists 3. reflexivity.
  - intros snap. discriminate.
Defined.

(** X8.  The snapshots on which no sensor of the table fails: every sensor
    of the table returns a value exactly when the snapshot is a dict that
    has the snapshot key of every measurement description and whose
    [SpecialState] is a dict that has the key of every flag description. *)
Theorem all_sensors_return_iff σ :
  (∀ self, entity_description self ∈ SENSOR_TYPES →
           ∃ v, native_value self σ = (Ok v, σ)) ↔
  ∃ snap special,
    data σ = PDict snap ∧
    snap !! "SpecialState" = Some (PDict special) ∧
    ∀ d, d ∈ SENSOR_TYPES →
      if is_flag d then is_Some (special !! key d)
      else is_Some (snap !! snapshot_key d).
Proof.
  split.
  - intros Hall.
    pose (sensor_of := λ d, {| entity_description := d;
                               _attr_unique_id := "";
                               _attr_device_info := ∅ |}).
    assert (∃ d0, SENSOR_TYPES !! 9 = Some d0) as [d0 Hd0] by (by eexists).
    assert (d0 ∈ SENSOR_TYPES) as Hin0
      by (apply list_elem_of_lookup; by exists 9).
    assert (is_flag d0 = true) as Hf0 by (by injection Hd0 as <-).
    destruct (Hall (sensor_of d0) Hin0) as [v0 Hv0].
    apply (flag_returns_inv (sensor_of d0)) in Hv0
      as (snap & special & x & Hdata & Hss & _); [|done..].
    exists snap, special. split; [done|]. split; [done|].
    intros d Hd. destruct (Hall (sensor_of d) Hd) as [v Hv].
    destruct (is_flag d) eqn:Hflag.
    + apply (flag_returns_inv (sensor_of d)) in Hv
        as (snap' & special' & y & Hdata' & Hss' & Hy & _); [|done..].
      rewrite Hdata in Hdata'. injection Hdata' as <-.
      rewrite Hss in Hss'. injection Hss' as <-. by eexists.
    + apply (measurement_returns_inv (sensor_of d)) in Hv
        as (snap' & Hdata' & Hv & _); [|done..].
      rewrite Hdata in Hdata'. injection Hdata' as <-. by eexists.
  - intros (snap & special & Hdata & Hss & Hkeys) self Hd.
    by apply (all_sensors_return self σ snap special).
Qed.

Lemma all_sensors_return_iff_witness :
  Forall (λ d, ∃ v,
            native_value {| entity_description := d;
                            _attr_unique_id := "MS-0001" +:+ "_" +:+
                                               translation_key d;
                            _attr_device_info := ∅ |}
              (polled_coordinator "MS-0001" full_snapshot) =
            (Ok v, polled_coordinator "MS-0001" full_snapshot))
    SENSOR_TYPES.
Proof.
  apply Forall_forall. intros d Hd.
  apply (proj2 (all_sensors_return_iff
                  (polled_coordinator "MS-0001" full_snapshot))); [|exact Hd].
  eexists _, _. split; [reflexivity|]. split; [reflexivity|].
  intros d' Hd'. table_cases Hd'; by eexists.
Defined.

(** ** Setting up a config entry on the host *)

Lemma entry_coordinator_ok (DOMAIN : string) (config : ConfigEntry)
    (hass : HomeAssistant) entries entry c :
  hass_data hass !! DOMAIN = Some entries →
  entries !! entry_id config = Some entry →
  entry !! "coordinator" = Some c →
  Platform.entry_coordinator DOMAIN config hass = Ok c.
Proof.
  intros H1 H2 H3. unfold Platform.entry_coordinator. by rewrite H1, H2, H3.
Qed.

(** Storing back the coordinator that was looked up changes nothing. *)
Lemma store_coordinator_id (DOMAIN : string) (config : ConfigEntry)
    (hass : HomeAssistant) c :
  Platform.entry_coordinator DOMAIN config hass = Ok c →
  Platform.store_coordinator DOMAIN config c hass = hass.
Proof.
  unfold Platform.entry_coordinator, Platform.store_coordinator.
  destruct hass as [hd added]; simpl.
  destruct (hd !! DOMAIN) as [entries|] eqn:H1; [|discriminate].
  destruct (entries !! entry_id config) as [entry|] eqn:H2; [|discriminate].
  destruct (entry !! "coordinator") as [c'|] eqn:H3; [|discriminate].
  intros [= ->]. f_equal.
  apply alter_id. intros entries' Hentries'.
  rewrite H1 in Hentries'. injection Hentries' as <-.
  apply alter_id. intros entry' Hentry'.
  rewrite H2 in Hentry'. injection Hentry' as <-.
  by apply insert_id.
Qed.

Lemma sensors_for_no_ident (d : MaxStorageSensorDescription)
    (rest : list MaxStorageSensorDescription) σ :
  api_device_info σ !! "Ident" = None →
  sensors_for (d :: rest) σ = (Raise (KeyError "Ident"), σ).
Proof.
  intros Hid. simpl. unfold mbind at 1, Py_bind at 1.
  by rewrite (init_no_ident d σ Hid).
Qed.

(** X9.  Setting up a config entry whose coordinator is stored in
    [hass.data] and whose device reports an identity token registers one
    batch of entities: one sensor per description and in the table's
    order, with pairwise different unique ids, each made of the token, an
    underscore and the translation key, and each carrying the
    coordinator's device info.  Batches registered earlier stay, and
    [hass.data] is as it was. *)
Theorem setup_registers_all (DOMAIN : string) (config : ConfigEntry)
    (hass : HomeAssistant) entries entry c (ident : string) :
  hass_data hass !! DOMAIN = Some entries →
  entries !! entry_id config = Some entry →
  entry !! "coordinator" = Some c →
  api_device_info c !! "Ident" = Some ident →
  ∃ sensors,
    Platform.async_setup_entry DOMAIN config Platform.register_entities hass =
      (Ok (), {| hass_data := hass_data hass;
                 added_entities := added_entities hass ++ [sensors] |}) ∧
    entity_description <$> sensors = SENSOR_TYPES ∧
    NoDup (_attr_unique_id <$> sensors) ∧
    Forall (λ s, _attr_unique_id s =
                   ident +:+ "_" +:+ translation_key (entity_description s) ∧
                 _attr_device_info s = device_info c) sensors.
Proof.
  intros H1 H2 H3 Hid.
  pose proof (entry_coordinator_ok DOMAIN config hass _ _ _ H1 H2 H3) as Hc.
  destruct (async_setup_entry_unique_ids c ident Hid)
    as (sensors & Hrun & Hdescs & Hnodup).
  unfold async_setup_entry in Hrun.
  exists sensors. split; [|split; [done|split; [done|]]].
  - unfold Platform.async_setup_entry, Platform.register_entities.
    rewrite Hc, Hrun. by rewrite (store_coordinator_id _ _ _ _ Hc).
  - rewrite (sensors_for_eq c ident Hid) in Hrun.
    assert (sensors =
              (λ d, {| entity_description := d;
                       _attr_unique_id := ident +:+ "_" +:+ translation_key d;
                       _attr_device_info := device_info c |}) <$> SENSOR_TYPES)
      as -> by congruence.
    apply Forall_fmap, Forall_forall. intros d _. done.
Qed.

Lemma setup_registers_all_witness :
  ∃ sensors,
    Platform.async_setup_entry "maxstorage_ultimate" {| entry_id := "e1" |}
      Platform.register_entities
      (host_with "maxstorage_ultimate" "e1"
         (polled_coordinator "MS-0001" full_snapshot)) =
      (Ok (),
       {| hass_data :=
            hass_data (host_with "maxstorage_ultimate" "e1"
                         (polled_coordinator "MS-0001" full_snapshot));
          added_entities := [] ++ [sensors] |}) ∧
    entity_description <$> sensors = SENSOR_TYPES ∧
    NoDup (_attr_unique_id <$> sensors) ∧
    Forall (λ s, _attr_unique_id s =
                   "MS-0001" +:+ "_" +:+ translation_key (entity_description s) ∧
                 _attr_device_info s =
                   device_info (polled_coordinator "MS-0001" full_snapshot))
      sensors.
Proof.
  apply (setup_registers_all "maxstorage_ultimate" {| entry_id := "e1" |}
           (host_with "maxstorage_ultimate" "e1"
              (polled_coordinator "MS-0001" full_snapshot))
           {[ "e1" := {[ "coordinator" :=
                           polled_coordinator "MS-0001" full_snapshot ]} ]}
           {[ "coordinator" := polled_coordinator "MS-0001" full_snapshot ]}
           (polled_coordinator "MS-0001" full_snapshot) "MS-0001");
    reflexivity.
Defined.

(** Why setting up raised, when it was not the callback: the lookup in
    [hass.data] failed at one of its three levels, or the device info has
    no identity token. *)
Lemma setup_failure_cases (DOMAIN : string) (config : ConfigEntry)
    (async_add_entities : list MaxStorageSensor → Hass unit)
    (hass hass' : HomeAssistant) (e : exn) :
  Platform.async_setup_entry DOMAIN config async_add_entities hass =
    (Raise e, hass') →
  (hass' = hass ∧
   ((e = KeyError DOMAIN ∧ hass_data hass !! DOMAIN = None) ∨
    (e = KeyError (entry_id config) ∧
     ∃ entries, hass_data hass !! DOMAIN = Some entries ∧
                entries !! entry_id config = None) ∨
    (e = KeyError "coordinator" ∧
     ∃ entries entry, hass_data hass !! DOMAIN = Some entries ∧
                      entries !! entry_id config = Some entry ∧
                      entry !! "coordinator" = None) ∨
    (e = KeyError "Ident" ∧
     ∃ c, Platform.entry_coordinator DOMAIN config hass = Ok c ∧
          api_device_info c !! "Ident" = None))) ∨
  (∃ c sensors,
     Platform.entry_coordinator DOMAIN config hass = Ok c ∧
     sensors_for SENSOR_TYPES c = (Ok sensors, c) ∧
     async_add_entities sensors hass = (Raise e, hass')).
Proof.
  unfold Platform.async_setup_entry.
  destruct (Platform.entry_coordinator DOMAIN config hass) as [c|e'] eqn:Hc.
  - destruct (api_device_info c !! "Ident") as [ident|] eqn:Hid.
    + rewrite (sensors_for_eq c ident Hid).
      rewrite (store_coordinator_id _ _ _ _ Hc). intros Hadd.
      right. eexists c, _. split; [done|]. split; [|exact Hadd].
      apply (sensors_for_eq c ident Hid).
    + unfold SENSOR_TYPES. rewrite (sensors_for_no_ident _ _ c Hid).
      rewrite (store_coordinator_id _ _ _ _ Hc). intros [= <- <-].
      left. split; [done|]. do 3 right. split; [done|]. by exists c.
  - intros [= <- <-]. left. split; [done|].
    unfold Platform.entry_coordinator in Hc.
    destruct (hass_data hass !! DOMAIN) as [entries|] eqn:H1.
    + destruct (entries !! entry_id config) as [entry|] eqn:H2.
      * destruct (entry !! "coordinator") as [c|] eqn:H3; [discriminate|].
        injection Hc as <-. right. right. left. split; [done|].
        by exists entries, entry.
      * injection Hc as <-. right. left. split; [done|]. by exists entries.
    + injection Hc as <-. left. done.
Qed.

(** X10.  When setting up a config entry raises, one of two things has
    happened.  Either the callback was not reached: the host is as it was
    and the exception is a [KeyError], of [DOMAIN], of the entry id or of
    ["coordinator"] when [hass.data] does not lead to a coordinator, of
    ["Ident"] when the device info has no identity token.  Or all sensors
    were constructed and the callback, called with the whole batch on the
    host as it was, raised: exception and host are then the callback's.
    So with a callback that never raises, setting up registers all sensors
    or none. *)
Theorem setup_failure_registers_nothing (DOMAIN : string)
    (config : ConfigEntry)
    (async_add_entities : list MaxStorageSensor → Hass unit)
    (hass hass' : HomeAssistant) (e : exn) :
  Platform.async_setup_entry DOMAIN config async_add_entities hass =
    (Raise e, hass') →
  ((hass' = hass ∧
    ((e = KeyError DOMAIN ∧ hass_data hass !! DOMAIN = None) ∨
     (e = KeyError (entry_id config) ∧
      ∃ entries, hass_data hass !! DOMAIN = Some entries ∧
                 entries !! entry_id config = None) ∨
     (e = KeyError "coordinator" ∧
      ∃ entries entry, hass_data hass !! DOMAIN = Some entries ∧
                       entries !! entry_id config = Some entry ∧
                       entry !! "coordinator" = None) ∨
     (e = KeyError "Ident" ∧
      ∃ c, Platform.entry_coordinator DOMAIN config hass = Ok c ∧
           api_device_info c !! "Ident" = None))) ∨
   (∃ c sensors,
      Platform.entry_coordinator DOMAIN config hass = Ok c ∧
      sensors_for SENSOR_TYPES c = (Ok sensors, c) ∧
      entity_description <$> sensors = SENSOR_TYPES ∧
      async_add_entities sensors hass = (Raise e, hass'))) ∧
  (Platform.never_raises async_add_entities →
   hass' = hass ∧
   (e = KeyError DOMAIN ∨ e = KeyError (entry_id config) ∨
    e = KeyError "coordinator" ∨ e = KeyError "Ident")).
Proof.
  intros Hrun.
  destruct (setup_failure_cases _ _ _ _ _ _ Hrun)
    as [[-> Hwhy]|(c & sensors & Hc & Hsensors & Hadd)].
  - split; [by left|]. intros _. split; [done|].
    destruct Hwhy as [[-> _]|[[-> _]|[[-> _]|[-> _]]]]; auto.
  - split.
    + right. exists c, sensors. split; [done|]. split; [done|].
      split; [|done].
      destruct (api_device_info c !! "Ident") as [ident|] eqn:Hid.
      * rewrite (sensors_for_eq c ident Hid) in Hsensors.
        assert (sensors =
                  (λ d, {| entity_description := d;
                           _attr_unique_id :=
                             ident +:+ "_" +:+ translation_key d;
                           _attr_device_info := device_info c |})
                    <$> SENSOR_TYPES) as -> by congruence.
        rewrite <- list_fmap_compose. apply list_fmap_id.
      * unfold SENSOR_TYPES in Hsensors at 1.
        rewrite (sensors_for_no_ident _ _ c Hid) in Hsensors. discriminate.
    + intros Hnever. destruct (Hnever sensors hass) as [hass'' Hok].
      rewrite Hok in Hadd. discriminate.
Qed.

Lemma setup_failure_registers_nothing_witness :
  (* the device info has no identity token: nothing is registered *)
  (Platform.async_setup_entry "maxstorage_ultimate" {| entry_id := "e1" |}
     Platform.register_entities
     (host_with "maxstorage_ultimate" "e1" anonymous_coordinator) =
     (Raise (KeyError "Ident"),
      host_with "maxstorage_ultimate" "e1" anonymous_coordinator) ∧
   host_with "maxstorage_ultimate" "e1" anonymous_coordinator =
     host_with "maxstorage_ultimate" "e1" anonymous_coordinator ∧
   (KeyError "Ident" = KeyError "maxstorage_ultimate" ∨
    KeyError "Ident" = KeyError (entry_id {| entry_id := "e1" |}) ∨
    KeyError "Ident" = KeyError "coordinator" ∨
    KeyError "Ident" = KeyError "Ident")) ∧
  (* the callback raises: it has been called with all the sensors *)
  ∃ hass',
    Platform.async_setup_entry "maxstorage_ultimate" {| entry_id := "e1" |}
      register_then_fail
      (host_with "maxstorage_ultimate" "e1"
         (polled_coordinator "MS-0001" full_snapshot)) =
      (Raise TypeError, hass') ∧
    length <$> added_entities hass' = [length SENSOR_TYPES] ∧
    ((hass' = host_with "maxstorage_ultimate" "e1"
                (polled_coordinator "MS-0001" full_snapshot) ∧
      ((TypeError = KeyError "maxstorage_ultimate" ∧
        hass_data (host_with "maxstorage_ultimate" "e1"
                     (polled_coordinator "MS-0001" full_snapshot))
          !! "maxstorage_ultimate" = None) ∨
       (TypeError = KeyError (entry_id {| entry_id := "e1" |}) ∧
        ∃ entries,
          hass_data (host_with "maxstorage_ultimate" "e1"
                       (polled_coordinator "MS-0001" full_snapshot))
            !! "maxstorage_ultimate" = Some entries ∧
          entries !! entry_id {| entry_id := "e1" |} = None) ∨
       (TypeError = KeyError "coordinator" ∧
        ∃ entries entry,
          hass_data (host_with "maxstorage_ultimate" "e1"
                       (polled_coordinator "MS-0001" full_snapshot))
            !! "maxstorage_ultimate" = Some entries ∧
          entries !! entry_id {| entry_id := "e1" |} = Some entry ∧
          entry !! "coordinator" = None) ∨
       (TypeError = KeyError "Ident" ∧
        ∃ c, Platform.entry_coordinator "maxstorage_ultimate"
               {| entry_id := "e1" |}
               (host_with "maxstorage_ultimate" "e1"
                  (polled_coordinator "MS-0001" full_snapshot)) = Ok c ∧
             api_device_info c !! "Ident" = None))) ∨
     (∃ c sensors,
        Platform.entry_coordinator "maxstorage_ultimate"
          {| entry_id := "e1" |}
          (host_with "maxstorage_ultimate" "e1"
             (polled_coordinator "MS-0001" full_snapshot)) = Ok c ∧
        sensors_for SENSOR_TYPES c = (Ok sensors, c) ∧
        entity_description <$> sensors = SENSOR_TYPES ∧
        register_then_fail sensors
          (host_with "maxstorage_ultimate" "e1"
             (polled_coordinator "MS-0001" full_snapshot)) =
          (Raise TypeError, hass'))).
Proof.
  split.
  - split; [reflexivity|].
    apply (proj2 (setup_failure_registers_nothing "maxstorage_ultimate"
                    {| entry_id := "e1" |} Platform.register_entities
                    (host_with "maxstorage_ultimate" "e1" anonymous_coordinator)
                    (host_with "maxstorage_ultimate" "e1" anonymous_coordinator)
                    (KeyError "Ident") eq_refl)).
    intros sensors hass. by eexists.
  - eexists. split; [reflexivity|]. split; [reflexivity|].
    refine (proj1 (setup_failure_registers_nothing "maxstorage_ultimate"
                     {| entry_id := "e1" |} register_then_fail
                     (host_with "maxstorage_ultimate" "e1"
                        (polled_coordinator "MS-0001" full_snapshot))
                     _ TypeError _)).
    reflexivity.
Defined.

(** X11.  Setting up and then reading: on a host set up as in X9, whose
    coordinator holds a snapshot with every measurement's snapshot key and
    a [SpecialState] dict with every flag's key, every registered sensor
    returns a value, and the coordinator is left as it was. *)
Theorem setup_then_read (DOMAIN : string) (config : ConfigEntry)
    (hass hass' : HomeAssistant) c (snap special : gmap string pyval) :
  Platform.entry_coordinator DOMAIN config hass = Ok c →
  Platform.async_setup_entry DOMAIN config Platform.register_entities hass =
    (Ok (), hass') →
  data c = PDict snap →
  snap !! "SpecialState" = Some (PDict special) →
  (∀ d, d ∈ SENSOR_TYPES →
     if is_flag d then is_Some (special !! key d)
     else is_Some (snap !! snapshot_key d)) →
  ∃ sensors,
    added_entities hass' = added_entities hass ++ [sensors] ∧
    length sensors = length SENSOR_TYPES ∧
    Forall (λ s, ∃ v, native_value s c = (Ok v, c)) sensors.
Proof.
  intros Hc Hrun Hdata Hss Hkeys.
  unfold Platform.async_setup_entry in Hrun. rewrite Hc in Hrun.
  destruct (api_device_info c !! "Ident") as [ident|] eqn:Hid.
  - rewrite (sensors_for_eq c ident Hid) in Hrun.
    unfold Platform.register_entities in Hrun.
    injection Hrun as <-.
    exists ((λ d, {| entity_description := d;
                     _attr_unique_id := ident +:+ "_" +:+ translation_key d;
                     _attr_device_info := device_info c |}) <$> SENSOR_TYPES).
    split; [reflexivity|]. split; [by rewrite length_fmap|].
    apply Forall_fmap, Forall_forall. intros d Hd.
    by apply (all_sensors_return _ c snap special).
  - unfold SENSOR_TYPES in Hrun at 1.
    rewrite (sensors_for_no_ident _ _ c Hid) in Hrun. discriminate.
Qed.

Lemma setup_then_read_witness :
  ∃ sensors,
    added_entities
      {| hass_data :=
           hass_data (host_with "maxstorage_ultimate" "e1"
                        (polled_coordinator "MS-0001" full_snapshot));
         added_entities :=
           [(λ d, {| entity_description := d;
                     _attr_unique_id := "MS-0001" +:+ "_" +:+ translation_key d;
                     _attr_device_info := ∅ |}) <$> SENSOR_TYPES] |} =
      added_entities (host_with "maxstorage_ultimate" "e1"
                        (polled_coordinator "MS-0001" full_snapshot))
        ++ [sensors] ∧
    length sensors = length SENSOR_TYPES ∧
    Forall (λ s, ∃ v,
              native_value s (polled_coordinator "MS-0001" full_snapshot) =
                (Ok v, polled_coordinator "MS-0001" full_snapshot)) sensors.
Proof.
  eapply (setup_then_read "maxstorage_ultimate" {| entry_id := "e1" |}
            (host_with "maxstorage_ultimate" "e1"
               (polled_coordinator "MS-0001" full_snapshot))).
  - reflexivity.
  - reflexivity.
  - reflexivity.
  - reflexivity.
  - intros d Hd. table_cases Hd; by eexists.
Defined.

(** ** The table's metadata *)

(** X12.  In the table, unit, state class and device class go together:
    a description has all three or none; a battery shows a percentage, an
    energy storage watt-hours, a power watts, each as a measurement. *)
Theorem SENSOR_TYPES_metadata (d : MaxStorageSensorDescription) :
  d ∈ SENSOR_TYPES →
  match device_class d with
  | None =>
      native_unit_of_measurement d = None ∧ state_class d = None
  | Some BATTERY =>
      native_unit_of_measurement d = Some PERCENTAGE ∧
      state_class d = Some MEASUREMENT
  | Some ENERGY_STORAGE =>
      native_unit_of_measurement d = Some WATT_HOUR ∧
      state_class d = Some MEASUREMENT
  | Some POWER =>
      native_unit_of_measurement d = Some WATT ∧
      state_class d = Some MEASUREMENT
  end.
Proof. intros Hd. table_cases Hd; done. Qed.

Lemma SENSOR_TYPES_metadata_witness :
  ∃ d, SENSOR_TYPES !! 1 = Some d ∧
    device_class d = Some ENERGY_STORAGE ∧
    native_unit_of_measurement d = Some WATT_HOUR ∧
    state_class d = Some MEASUREMENT.
Proof.
  eexists. split; [reflexivity|]. split; [reflexivity|].
  match goal with |- native_unit_of_measurement ?d = _ ∧ _ =>
    refine (SENSOR_TYPES_metadata d _)
  end.
  apply list_elem_of_lookup. exists 1. reflexivity.
Defined.
